(** * agent1: the deep-research script [main.py]

    A shallow embedding of the two resource-control wrappers of the script,
    the rate-limited [web_search] tool and the retrying invoker
    [safe_run_sync], together with the agent declarations they serve, the
    plain wrapper [throttled_run_sync] and the end of the script, which
    prints and saves the report.

    Python's effects are made explicit: a [World] holds the wall clock, the
    module global [last_call_time] and logs of what the script did to the
    outside (sleeps, prints, calls to the agents runner and to the Tavily
    client).  What the outside answers is an [Env]: the outcome of every
    runner call and of every search, and the time that passes at each
    primitive effect.  Wall-clock time is an exact rational number of
    seconds. *)

From Stdlib Require Import ZArith QArith Lqa String Ascii List DecimalString.
From stdpp Require Import base option list gmap strings.

Set Default Proof Using "Type".

(** ** Python values and exceptions *)

(** The classes the handlers of the script tell apart.  [except
    RateLimitError] catches the first, [except Exception] the first two, and
    a [BaseException] outside [Exception] (KeyboardInterrupt, SystemExit,
    asyncio.CancelledError) is caught by neither. *)
Inductive ExcClass : Type :=
| RateLimitError
| ExceptionSub (name : string)
| BaseOnly (name : string).

Record PyExc : Type := mkExc { exc_class : ExcClass; exc_msg : string }.

(** [str(e)] *)
Definition str_exc (e : PyExc) : string := exc_msg e.

Definition isinstance_RateLimitError (e : PyExc) : bool :=
  match exc_class e with RateLimitError => true | _ => false end.

Definition isinstance_Exception (e : PyExc) : bool :=
  match exc_class e with BaseOnly _ => false | _ => true end.

(** [Exception(msg)], and the [ValueError] and [OverflowError] of [time.sleep]. *)
Definition Exception (msg : string) : PyExc := mkExc (ExceptionSub "Exception") msg.
Definition ValueError (msg : string) : PyExc := mkExc (ExceptionSub "ValueError") msg.
Definition OverflowError (msg : string) : PyExc := mkExc (ExceptionSub "OverflowError") msg.

(** The fields of a Tavily result entry are JSON strings or null. *)
Inductive PyVal : Type :=
| VNone
| VStr (s : string).

(** Truth value of an operand of [or]: [None] and the empty string are false. *)
Definition truthy (v : PyVal) : bool :=
  match v with
  | VNone => false
  | VStr s => negb (String.eqb s EmptyString)
  end.

(** [a or b] *)
Definition py_or (a b : PyVal) : PyVal := if truthy a then a else b.

(** How an f-string renders a value. *)
Definition format_val (v : PyVal) : string :=
  match v with
  | VNone => "None"
  | VStr s => s
  end.

(** [needle in hay] on strings. *)
Fixpoint contains (needle hay : string) : bool :=
  String.prefix needle hay ||
  match hay with
  | EmptyString => false
  | String _ rest => contains needle rest
  end.

(** Decimal rendering of an [int] inside an f-string. *)
Definition format_int (z : Z) : string := NilZero.string_of_int (Z.to_int z).

Definition newline : string := String "010"%char EmptyString.

(** [sep.join(parts)] *)
Definition join (sep : string) (parts : list string) : string := String.concat sep parts.

(** ** What a call yields *)

Inductive Outcome (A : Type) : Type :=
| Return (a : A)
| Raise (e : PyExc).
Arguments Return {A} a.
Arguments Raise {A} e.

(** A result entry is a dict; the response is a dict whose ["results"] key
    may be absent. *)
Record Response : Type := mkResponse { resp_results : option (list (gmap string PyVal)) }.

(** [result.final_output] is the only field of a run result the script reads. *)
Record RunResult : Type := mkRunResult { final_output : string }.

(** ** Agents and tools (section 5 of the script) *)

Inductive Model : Type :=
| light_model     (* gemini-2.5-flash-lite *)
| llm_model       (* gemini-2.5-flash *)
| special_model.  (* gemini-2.5-pro *)

Inductive FunctionTool : Type :=
| web_search_tool
| current_date_tool.

Inductive Agent : Type :=
| mkAgent (name instructions : string) (model : Model) (tools : list Tool)
with Tool : Type :=
| NativeTool (f : FunctionTool)
| AgentTool (a : Agent) (tool_name tool_description : string).

Definition agent_name (a : Agent) : string := let (n, _, _, _) := a in n.
Definition agent_instructions (a : Agent) : string := let (_, i, _, _) := a in i.
Definition agent_model (a : Agent) : Model := let (_, _, m, _) := a in m.
Definition agent_tools (a : Agent) : list Tool := let (_, _, _, t) := a in t.

(** [agent.as_tool(name, description)] *)
Definition as_tool (a : Agent) (tool_name tool_description : string) : Tool :=
  AgentTool a tool_name tool_description.

(** The name under which the model sees a tool: a decorated function keeps
    its own name. *)
Definition tool_name_of (t : Tool) : string :=
  match t with
  | NativeTool web_search_tool => "web_search"
  | NativeTool current_date_tool => "current_date"
  | AgentTool _ n _ => n
  end.

(** ** The world and its environment *)

Record RunnerCall : Type := mkRunnerCall {
  rc_agent : Agent; rc_prompt : string; rc_max_turns : Z }.

Record TavilyCall : Type := mkTavilyCall {
  tc_query : string; tc_max_results : Z; tc_issued_at : Q }.

Inductive Printed : Type :=
| PrintLine (s : string)
| PrintRepr (label : string) (r : Response).

Record World : Type := mkWorld {
  clock : Q;                     (* wall clock, seconds *)
  events : nat;                  (* primitive effects performed so far *)
  last_call_time : Q;            (* the module global of line 48 *)
  sleep_log : list Q;            (* durations of the completed time.sleep calls *)
  stdout : list Printed;
  runner_log : list RunnerCall;  (* Runner.run_sync calls, oldest first *)
  tavily_log : list TavilyCall   (* tavily_client.search calls, oldest first *)
}.

Record Env : Type := mkEnv {
  (* seconds that pass during the n-th primitive effect *)
  latency : nat -> Q;
  (* what the n-th Runner.run_sync call yields *)
  Runner_run_sync : nat -> Agent -> string -> Z -> Outcome RunResult;
  (* what the n-th tavily_client.search call yields *)
  tavily_search : nat -> string -> Z -> Outcome Response
}.

(** Line 48: [last_call_time = 0]. *)
Definition initial_world (start : Q) : World :=
  mkWorld start 0 0%Q [] [] [] [].

(** ** A state and exception monad for the script's effects *)

Definition M (A : Type) : Type := World -> Outcome A * World.

Definition ret {A} (a : A) : M A := fun w => (Return a, w).
Definition raise {A} (e : PyExc) : M A := fun w => (Raise e, w).
Definition bind {A B} (m : M A) (k : A -> M B) : M B :=
  fun w => match m w with
           | (Return a, w') => k a w'
           | (Raise e, w') => (Raise e, w')
           end.
(** [try: m  except ...: h e] where [h] decides what it catches. *)
Definition try_except {A} (m : M A) (h : PyExc -> M A) : M A :=
  fun w => match m w with
           | (Return a, w') => (Return a, w')
           | (Raise e, w') => h e w'
           end.

Declare Scope py_scope.
Delimit Scope py_scope with py.
Notation "x <- m ;; k" := (bind m (fun x => k))
  (at level 100, m at next level, right associativity) : py_scope.
Notation "m ;;; k" := (bind m (fun _ => k))
  (at level 100, right associativity) : py_scope.
Open Scope py_scope.

Definition get {A} (f : World -> A) : M A := fun w => (Return (f w), w).
Definition modify (f : World -> World) : M unit := fun w => (Return tt, f w).

(** ** Rational comparisons as the script needs them *)

Definition Qltb (x y : Q) : bool := negb (Qle_bool y x).

(** ** The range of [time.sleep] *)

(** [time.sleep] first converts its argument to a count of nanoseconds in a
    signed 64-bit integer, and only then looks at its sign. *)
Definition PyTime_MIN : Z := (- 2 ^ 63)%Z.
Definition PyTime_MAX : Z := (2 ^ 63 - 1)%Z.

(** Whether a whole number of seconds converts. *)
Definition sleep_in_range (secs : Z) : bool :=
  ((PyTime_MIN <=? secs * 10 ^ 9) && (secs * 10 ^ 9 <=? PyTime_MAX))%Z.

(** ** Primitive effects *)

Definition set_last_call_time (t : Q) (w : World) : World :=
  mkWorld (clock w) (events w) t (sleep_log w) (stdout w) (runner_log w) (tavily_log w).

Definition log_sleep (d : Q) (w : World) : World :=
  mkWorld (clock w + d) (events w) (last_call_time w) (sleep_log w ++ [d]) (stdout w)
          (runner_log w) (tavily_log w).

Definition log_print (p : Printed) (w : World) : World :=
  mkWorld (clock w) (events w) (last_call_time w) (sleep_log w) (stdout w ++ [p])
          (runner_log w) (tavily_log w).

Definition log_runner (c : RunnerCall) (w : World) : World :=
  mkWorld (clock w) (events w) (last_call_time w) (sleep_log w) (stdout w)
          (runner_log w ++ [c]) (tavily_log w).

Definition log_tavily (c : TavilyCall) (w : World) : World :=
  mkWorld (clock w) (events w) (last_call_time w) (sleep_log w) (stdout w)
          (runner_log w) (tavily_log w ++ [c]).

Section Effects.
Variable env : Env.

(** Time passes between one effect and the next. *)
Definition elapse (w : World) : World :=
  mkWorld (clock w + latency env (events w)) (S (events w)) (last_call_time w)
          (sleep_log w) (stdout w) (runner_log w) (tavily_log w).

(** [time.time()] *)
Definition time_time : M Q :=
  modify elapse ;;; get clock.

(** [time.sleep(d)] for the float of line 60, the rest of an interval of 6
    seconds: refuses a negative duration, otherwise the clock moves on by
    [d]; any overshoot is part of the next effect's latency.  The conversion
    of such a rest overflows only for a stamp some 292 years ahead of the
    clock, and is left out here; the waits a caller chooses go through
    [time_sleep_int]. *)
Definition time_sleep (d : Q) : M unit :=
  modify elapse ;;;
  if Qltb d 0 then raise (ValueError "sleep length must be non-negative")
  else modify (log_sleep d).

(** [time.sleep(secs)] for an [int]: the conversion to nanoseconds comes
    first and raises [OverflowError] out of range, then a negative duration
    is refused, otherwise the clock moves on by [secs]. *)
Definition time_sleep_int (secs : Z) : M unit :=
  modify elapse ;;;
  if sleep_in_range secs then
    if (secs <? 0)%Z then raise (ValueError "sleep length must be non-negative")
    else modify (log_sleep (inject_Z secs))
  else raise (OverflowError "timestamp too large to convert to C _PyTime_t").

(** [print(...)] *)
Definition print (p : Printed) : M unit :=
  modify elapse ;;; modify (log_print p).

(** [Runner.run_sync(agent, prompt, max_turns=max_turns)].  The run is the
    runner's, not the script's: what it yields is the environment's answer,
    and what goes on inside it, the searches of the model among it, is not
    replayed here.  The world after the call is the one the statements of
    the wrappers make, and its logs are theirs. *)
Definition run_sync (agent : Agent) (prompt : string) (max_turns : Z) : M RunResult :=
  modify elapse ;;;
  n <- get (fun w => length (runner_log w)) ;;
  modify (log_runner (mkRunnerCall agent prompt max_turns)) ;;;
  match Runner_run_sync env n agent prompt max_turns with
  | Return r => ret r
  | Raise e => raise e
  end.

(** [await tavily_client.search(query=query, max_results=max_results)] *)
Definition tavily_client_search (query : string) (max_results : Z) : M Response :=
  modify elapse ;;;
  n <- get (fun w => length (tavily_log w)) ;;
  now <- get clock ;;
  modify (log_tavily (mkTavilyCall query max_results now)) ;;;
  match tavily_search env n query max_results with
  | Return r => ret r
  | Raise e => raise e
  end.

(** ** Section 3 of the script: [web_search] *)

(** [r.get(key, default)] *)
Definition dict_get (r : gmap string PyVal) (key : string) (dflt : PyVal) : PyVal :=
  default dflt (r !! key).

(** Lines 73-75: the three assignments of the loop body. *)
Definition entry_title (r : gmap string PyVal) : PyVal :=
  dict_get r "title" (VStr "No Title").

Definition entry_url (r : gmap string PyVal) : PyVal :=
  dict_get r "url" (VStr "No URL").

Definition entry_snippet (r : gmap string PyVal) : PyVal :=
  py_or (dict_get r "snippet" VNone)
        (py_or (dict_get r "content" VNone) (VStr "No snippet available")).

(** Line 76: the line appended for entry [r]. *)
Definition format_entry (r : gmap string PyVal) : string :=
  "- " +:+ format_val (entry_title r) +:+ " (" +:+ format_val (entry_url r)
       +:+ "): " +:+ format_val (entry_snippet r).

(** Lines 71-76: [formatted = []] and one [append] per entry. *)
Definition format_results (rs : list (gmap string PyVal)) : list string :=
  fold_left (fun formatted r => formatted ++ [format_entry r]) rs [].

(** Lines 57-62: wait out the rest of the interval, then stamp the call. *)
Definition throttle : M unit :=
  now <- time_time ;;
  last <- get last_call_time ;;
  let elapsed := (now - last)%Q in
  (if Qltb elapsed 6 then time_sleep (6 - elapsed) else ret tt) ;;;
  now' <- time_time ;;
  modify (set_last_call_time now').

(** Lines 64-81: the [try] statement. *)
Definition search_and_format (query : string) (max_results : Z) : M string :=
  try_except
    (results <- tavily_client_search query max_results ;;
     print (PrintRepr "DEBUG Tavily response:" results) ;;;
     match resp_results results with
     | None => ret "No results found."
     | Some [] => ret "No results found."
     | Some rs => ret (join newline (format_results rs))
     end)
    (fun e =>
       if isinstance_Exception e
       then ret ("WebSearchTool failed: " +:+ str_exc e)
       else raise e).

Definition web_search (query : string) (max_results : Z) : M string :=
  throttle ;;; search_and_format query max_results.

End Effects.

(** ** Section 5 of the script: the agents *)

Definition websearch_agent_instructions : string :=
  "You are a helpful web search assistant. Use web search to find relevant information and return results with citations.".

Definition websearch_agent : Agent :=
  mkAgent "WebSearchAgent" websearch_agent_instructions llm_model
    [NativeTool web_search_tool].

Definition reflection_agent_instructions : string :=
  "You are a helpful reflection assistant. Use reflective listening to decide if the research goal is complete.".

Definition reflection_agent : Agent :=
  mkAgent "ReflectionAgent" reflection_agent_instructions light_model
    [].

Definition planning_agent_instructions : string :=
  "You are a helpful planning assistant. Plan the research process step by step using scientific methods. Always explain the principles you used.".

Definition planning_agent : Agent :=
  mkAgent "PlanningAgent" planning_agent_instructions special_model
    [].

Definition synthesis_agent_instructions : string :=
  join newline
    [ EmptyString;
      "    Your job is to review all research notes and sources,";
      "    merge overlapping findings, resolve contradictions,";
      "    and create a clear, structured summary.";
      "    - Group insights into categories";
      "    - Remove duplicates";
      "    - Flag uncertainties";
      "    - Keep track of citations";
      "    Return a clean knowledge base for the report writer.";
      "    " ].

Definition synthesis_agent : Agent :=
  mkAgent "synthesis_agent" synthesis_agent_instructions light_model
    [].

Definition report_writer_agent_instructions : string :=
  join newline
    [ EmptyString;
      "    You are the Report Writer Agent.";
      "    Using the structured insights from the synthesis_agent,";
      "    produce a professional research report.";
      "    - Add an executive summary";
      "    - Organize with clear sections & subheadings";
      "    - Insert citations inline (with URLs)";
      "    - End with a conclusion and a references section";
      "    Write in a professional, academic style, suitable for clients or publication.";
      "    " ].

Definition report_writer_agent : Agent :=
  mkAgent "report_writer_agent" report_writer_agent_instructions light_model
    [].

Definition orchestrator_agent_instructions : string :=
  join newline
    [ EmptyString;
      "       You are the Orchestrator Agent.";
      "    Process for each deep research request:";
      EmptyString;
      "    1. Get current date";
      "    2. Ask the planning_agent to create a research plan";
      "    3. Delegate web search tasks to websearch_agent";
      "    4. Use reflection_agent to verify sufficiency & credibility of results";
      "    5. Pass collected findings to synthesis_agent to merge & organize";
      "    6. Finally, pass synthesized insights to report_writer_agent to draft the final report";
      EmptyString;
      "    Always ensure the final output includes citations and is well-structured.";
      "    Stop the workflow once the report is written.";
      EmptyString;
      "Stopping rules:";
      "- When you have gathered enough evidence to answer the request, summarize and END the task immediately.";
      "- Do not continue asking the search agent once you can provide a reasonable, well-cited answer.";
      "- Never exceed 7 total exchanges with other agents. If the goal is not fully achieved by then, provide the best summary you can and stop.";
      EmptyString;
      "    " ].

Definition orchestrator_agent : Agent :=
  mkAgent "OrchestratorAgent" orchestrator_agent_instructions llm_model
    [ NativeTool current_date_tool;
      as_tool planning_agent "PlanningTool" "Planning assistant with scientific reasoning";
      as_tool reflection_agent "ReflectionTool" "Reflection assistant";
      as_tool websearch_agent "WebSearchTool" "Real web search assistant with citations";
      as_tool report_writer_agent "ReportWriterTool"
              "Creates the final polished research report with citations";
      as_tool synthesis_agent "SynthesisTool" "Merges and organizes research findings" ].
(** ** Section 6 of the script: [safe_run_sync] *)

(** How one pass of the [while] body ends, short of raising: with the
    [return] of line 200, or at the bottom of a handler with [attempt]
    incremented. *)
Inductive LoopStep : Type :=
| Returned (r : RunResult)
| Continue (attempt : Z).

(** The test of line 207. *)
Definition quota_marker (e : PyExc) : bool :=
  contains "RESOURCE_EXHAUSTED" (str_exc e) || contains "429" (str_exc e).

(** The errors after which [safe_run_sync] backs off and tries again: those
    the first handler catches, and those of the second that carry a marker. *)
Definition is_transient (e : PyExc) : bool :=
  isinstance_RateLimitError e || (isinstance_Exception e && quota_marker e).

(** [base_delay * (2 ** attempt)] *)
Definition wait_time (base_delay attempt : Z) : Z := (base_delay * 2 ^ attempt)%Z.

Section Retry.
Variable env : Env.

(** Lines 202-205 and 208-211: the two handlers differ in their message only. *)
Definition backoff (label : string) (base_delay attempt : Z) : M LoopStep :=
  let wait := wait_time base_delay attempt in
  print env (PrintLine (label +:+ " (attempt " +:+ format_int (attempt + 1)%Z
                        +:+ "). Retrying in " +:+ format_int wait +:+ "s...")) ;;;
  time_sleep_int env wait ;;;
  ret (Continue (attempt + 1)%Z).

(** Lines 199-213: the [try] statement. *)
Definition attempt_once (agent : Agent) (prompt : string)
    (max_turns base_delay attempt : Z) : M LoopStep :=
  try_except
    (r <- run_sync env agent prompt max_turns ;; ret (Returned r))
    (fun e =>
       if isinstance_RateLimitError e then backoff "Rate limit hit" base_delay attempt
       else if isinstance_Exception e then
         if quota_marker e then backoff "Gemini quota exceeded" base_delay attempt
         else raise e
       else raise e).

(** Lines 198-214: the [while] loop and the [raise] after it.  [None] is a
    loop stopped for lack of fuel. *)
Fixpoint safe_run_loop (fuel : nat) (agent : Agent) (prompt : string)
    (max_turns max_retries base_delay attempt : Z) (w : World)
    : option (Outcome RunResult * World) :=
  if (attempt <? max_retries)%Z then
    match fuel with
    | O => None
    | S fuel' =>
        match attempt_once agent prompt max_turns base_delay attempt w with
        | (Return (Returned r), w') => Some (Return r, w')
        | (Return (Continue attempt'), w') =>
            safe_run_loop fuel' agent prompt max_turns max_retries base_delay attempt' w'
        | (Raise e, w') => Some (Raise e, w')
        end
    end
  else Some (Raise (Exception "Too many retries, giving up."), w).

(** [attempt] starts at 0 and grows by one per pass, so [max_retries] passes
    are all the loop can make. *)
Definition safe_run_sync (agent : Agent) (prompt : string)
    (max_turns max_retries base_delay : Z) (w : World)
    : option (Outcome RunResult * World) :=
  safe_run_loop (Z.to_nat max_retries) agent prompt max_turns max_retries base_delay 0 w.

(** Lines 219-225: the call of the script and the print of its result. *)
Definition request : string :=
  "Do deep search for a lead generation system for a professiona business services consultancy.".


End Retry.

(** The defaults of the signature of line 196. *)
Definition default_max_turns : Z := 10.
Definition default_max_retries : Z := 5.
Definition default_base_delay : Z := 5.

(** ** Runs of searches *)

(** The values [last_call_time] takes along a run of back-to-back calls of
    [web_search], one per query. *)
Fixpoint stamps (env : Env) (queries : list (string * Z)) (w : World) : list Q :=
  match queries with
  | [] => []
  | (query, max_results) :: rest =>
      let w' := snd (web_search env query max_results w) in
      last_call_time w' :: stamps env rest w'
  end.

Definition nonneg_latency (env : Env) : Prop := forall n, (0 <= latency env n)%Q.

(** Seconds since the last stamp, as line 58 measures them in world [w]. *)
Definition elapsed_at (env : Env) (w : World) : Q :=
  (clock w + latency env (events w) - last_call_time w)%Q.

(** What [web_search] answers, by what the provider answers. *)
Definition answer (o : Outcome Response) : Outcome string :=
  match o with
  | Return resp =>
      match resp_results resp with
      | None | Some [] => Return "No results found."
      | Some rs => Return (join newline (format_results rs))
      end
  | Raise e =>
      if isinstance_Exception e
      then Return ("WebSearchTool failed: " +:+ str_exc e)
      else Raise e
  end.

(** ** Runs of attempts *)


(** An outcome that ends the loop: a result, or an error it does not retry. *)
Definition settles (o : Outcome RunResult) : Prop :=
  match o with
  | Return _ => True
  | Raise e => is_transient e = false
  end.


(** The sleeps of [n] passes that start at [attempt]. *)
Definition backoffs (base_delay attempt : Z) (n : nat) : list Q :=
  map (fun k => inject_Z (wait_time base_delay (attempt + Z.of_nat k))) (seq 0 n).

(** ** What the orchestrator may call *)

(** The script hands the orchestrator one flat list of tools, and holds no
    code that looks at the calls made so far: at each step of a run the model
    may call any tool of the list.  A history is the list of the names of
    the tools called, oldest first. *)
Definition registered (a : Agent) (tool : string) : bool :=
  existsb (String.eqb tool) (map tool_name_of (agent_tools a)).

Inductive tool_step (a : Agent) : list string -> list string -> Prop :=
| step_call (h : list string) (t : string) :
    registered a t = true -> tool_step a h (h ++ [t]).

Definition reachable (a : Agent) (h : list string) : Prop := rtc (tool_step a) [] h.

Definition admissible (a : Agent) (h : list string) : bool := forallb (registered a) h.

(** The order the specification asks of a history: a call of the report
    writer comes after a call of the synthesis tool. *)
Definition reporting_after_synthesis (h : list string) : Prop :=
  forall i, h !! i = Some "ReportWriterTool" ->
            exists j, (j < i)%nat /\ h !! j = Some "SynthesisTool".

(** ** The runner at the turn ceiling *)

(** The turn loop is the runner's, not the script's.  The agents package
    reports a run that used up [max_turns] by raising this exception. *)
Definition MaxTurnsExceeded (max_turns : Z) : PyExc :=
  mkExc (ExceptionSub "MaxTurnsExceeded")
        ("Max turns (" +:+ format_int max_turns +:+ ") exceeded").

(** ** The entry format as the specification words it *)

(** "a missing snippet [is replaced] by No snippet available": the snippet
    field alone decides. *)
Definition claimed_entry_snippet (r : gmap string PyVal) : PyVal :=
  dict_get r "snippet" (VStr "No snippet available").

Definition claimed_format_entry (r : gmap string PyVal) : string :=
  "- " +:+ format_val (dict_get r "title" (VStr "No Title")) +:+ " ("
       +:+ format_val (dict_get r "url" (VStr "No URL")) +:+ "): "
       +:+ format_val (claimed_entry_snippet r).

(** ** The entry format in words *)

(** The text of a field that is there, is a string and is not empty. *)
Definition nonempty_text (field : option PyVal) : option string :=
  match field with
  | Some (VStr s) => if String.eqb s EmptyString then None else Some s
  | _ => None
  end.

(** A missing title or url is replaced by its placeholder; the snippet is
    the snippet field if it has text, else the content field if it has text,
    else the placeholder. *)
Definition described_title (r : gmap string PyVal) : string :=
  match r !! "title" with None => "No Title" | Some v => format_val v end.

Definition described_url (r : gmap string PyVal) : string :=
  match r !! "url" with None => "No URL" | Some v => format_val v end.

Definition described_snippet (r : gmap string PyVal) : string :=
  match nonempty_text (r !! "snippet") with
  | Some s => s
  | None =>
      match nonempty_text (r !! "content") with
      | Some c => c
      | None => "No snippet available"
      end
  end.

Definition described_entry (r : gmap string PyVal) : string :=
  "- " +:+ described_title r +:+ " (" +:+ described_url r +:+ "): "
       +:+ described_snippet r.

(** ** Sample environments *)

Definition half_second : nat -> Q := fun _ => 1 # 2.

Definition quota_error : PyExc :=
  mkExc (ExceptionSub "ClientError") "429 RESOURCE_EXHAUSTED. Quota exceeded.".

Definition auth_error : PyExc :=
  mkExc (ExceptionSub "AuthenticationError") "Incorrect API key provided".

Definition boom : PyExc := mkExc (ExceptionSub "RuntimeError") "boom".

Definition no_results : Response := mkResponse (Some []).

Definition content_only : gmap string PyVal :=
  {[ "title" := VStr "T"; "url" := VStr "U"; "content" := VStr "C" ]}.

(** The runner fails with a quota error [failures] times, then returns. *)
Definition flaky_runner (failures : nat) : nat -> Agent -> string -> Z -> Outcome RunResult :=
  fun n _ _ _ => if (n <? failures)%nat then Raise quota_error
                 else Return (mkRunResult "REPORT").

Definition env_flaky (failures : nat) : Env :=
  mkEnv half_second (flaky_runner failures) (fun _ _ _ => Return no_results).


Definition env_auth : Env :=
  mkEnv half_second (fun _ _ _ _ => Raise auth_error) (fun _ _ _ => Raise boom).

Definition env_ceiling : Env :=
  mkEnv half_second (fun _ _ _ max_turns => Raise (MaxTurnsExceeded max_turns))
        (fun _ _ _ => Return (mkResponse (Some [content_only]))).

Definition world0 : World := initial_world 1000.

(** ** Section 6 of the script: [throttled_run_sync] *)

(** [Runner.run_sync] called without [max_turns] runs with the default of
    the agents package. *)
Definition DEFAULT_MAX_TURNS : Z := 10.

(** Lines 186-188. *)
Definition throttled_run_sync (env : Env) (agent : Agent) (prompt : string) : M RunResult :=
  time_sleep_int env 7 ;;; run_sync env agent prompt DEFAULT_MAX_TURNS.

(** ** The end of the script: lines 219-237 *)

(** A call of [Path.write_text], by its path and its text. *)
Record FileWrite : Type := mkFileWrite { fw_path : string; fw_text : string }.

(** What the file system answers: the text of [Path(name).resolve()], and
    the outcome of writing a text at a path. *)
Record Host : Type := mkHost {
  path_resolve : string -> Outcome string;
  path_write_text : string -> string -> Outcome unit
}.

Definition report_file : string := "lead_generation_business_consultancy_report.md".

(** The argument of the [print] of line 234. *)
Definition saved_line (out_path : string) : string :=
  newline +:+ "Report saved to: " +:+ out_path +:+ newline.

Section Script.
Variable env : Env.
Variable host : Host.

(** Lines 225-237, for the [result] of line 219: the world after them and
    the writes they asked for. *)
Definition report (result : RunResult) (w : World)
    : Outcome unit * World * list FileWrite :=
  let w1 := snd (print env (PrintLine (final_output result)) w) in
  let report_text := final_output result in
  let w2 := elapse env w1 in
  match path_resolve host report_file with
  | Raise e => (Raise e, w2, [])
  | Return out_path =>
      let w3 := elapse env w2 in
      match path_write_text host out_path report_text with
      | Raise e => (Raise e, w3, [mkFileWrite out_path report_text])
      | Return _ =>
          let w4 := snd (print env (PrintLine (saved_line out_path)) w3) in
          let w5 := snd (print env (PrintLine report_text) w4) in
          (Return tt, w5, [mkFileWrite out_path report_text])
      end
  end.

(** Lines 219-237. *)
Definition script (w : World) : option (Outcome unit * World * list FileWrite) :=
  match safe_run_sync env orchestrator_agent request 20 default_max_retries
                      default_base_delay w with
  | None => None
  | Some (Raise e, w') => Some (Raise e, w', [])
  | Some (Return result, w') => Some (report result w')
  end.

End Script.

(** ** Retry messages and waits *)







(** ** The throttle's invariant *)

(** The stamp is never ahead of the clock. *)
Definition stamp_in_past (w : World) : Prop := (last_call_time w <= clock w)%Q.

(** ** The shape of the delegation *)

Definition FunctionTool_eqb (f g : FunctionTool) : bool :=
  match f, g with
  | web_search_tool, web_search_tool => true
  | current_date_tool, current_date_tool => true
  | _, _ => false
  end.

(** The agent holds the function among its own tools. *)
Definition holds (f : FunctionTool) (a : Agent) : bool :=
  existsb (fun t => match t with
                    | NativeTool g => FunctionTool_eqb f g
                    | AgentTool _ _ _ => false
                    end) (agent_tools a).

(** The agents an agent can hand work to. *)
Definition delegates (a : Agent) : list Agent :=
  omap (fun t => match t with
                 | NativeTool _ => None
                 | AgentTool b _ _ => Some b
                 end) (agent_tools a).

(** ** Sample hosts and errors *)

Definition host_ok : Host :=
  mkHost (fun name => Return ("/srv/research/" +:+ name)) (fun _ _ => Return tt).

Definition rate_limit_error : PyExc := mkExc RateLimitError "Error code: 429".

Definition interrupt : PyExc := mkExc (BaseOnly "KeyboardInterrupt") "429".

Definition env_limited : Env :=
  mkEnv half_second (fun _ _ _ _ => Raise rate_limit_error) (fun _ _ _ => Return no_results).

Definition env_interrupted : Env :=
  mkEnv half_second (fun _ _ _ _ => Raise interrupt) (fun _ _ _ => Raise interrupt).
Lemma Qltb_true (x y : Q) : Qltb x y = true <-> (x < y)%Q.
Proof.
  unfold Qltb. rewrite negb_true_iff, <- not_true_iff_false, Qle_bool_iff.
  split; [apply Qnot_le_lt | apply Qlt_not_le].
Qed.

Lemma Qltb_false (x y : Q) : Qltb x y = false <-> (y <= x)%Q.
Proof.
  unfold Qltb. rewrite negb_false_iff. apply Qle_bool_iff.
Qed.

(** * Properties *)

(** ** The throttle *)

Section Throttle.
Variable env : Env.

(** The sleep of line 60 is never refused: it is asked for only when the
    remainder is positive. *)
Lemma throttle_returns (w : World) : fst (throttle env w) = Return tt.
Proof.
  unfold throttle, time_time, bind, get, modify; simpl.
  destruct (Qltb _ 6) eqn:E; [|reflexivity].
  unfold time_sleep, bind, modify; simpl.
  destruct (Qltb (6 - _) 0) eqn:E2; [|reflexivity].
  apply Qltb_true in E, E2. exfalso. lra.
Qed.

Lemma throttle_sleep_log (w : World) :
  sleep_log (snd (throttle env w)) =
  sleep_log w ++ (if Qltb (elapsed_at env w) 6 then [(6 - elapsed_at env w)%Q] else []).
Proof.
  unfold throttle, time_time, bind, get, modify, elapsed_at; simpl.
  destruct (Qltb _ 6) eqn:E; simpl; [|by rewrite app_nil_r].
  unfold time_sleep, bind, modify; simpl.
  destruct (Qltb (6 - _) 0) eqn:E2; [|reflexivity].
  apply Qltb_true in E, E2. exfalso. lra.
Qed.

(** The stamp is the clock as [throttle] leaves it. *)
Lemma throttle_stamp_is_clock (w : World) :
  last_call_time (snd (throttle env w)) = clock (snd (throttle env w)).
Proof.
  unfold throttle, time_time, bind, get, modify; simpl.
  destruct (Qltb _ 6) eqn:E; simpl; [|reflexivity].
  unfold time_sleep, bind, modify; simpl.
  destruct (Qltb (6 - _) 0) eqn:E2; [|reflexivity].
  apply Qltb_true in E, E2. exfalso. lra.
Qed.

Lemma throttle_logs (w : World) :
  runner_log (snd (throttle env w)) = runner_log w /\
  tavily_log (snd (throttle env w)) = tavily_log w /\
  stdout (snd (throttle env w)) = stdout w.
Proof.
  unfold throttle, time_time, bind, get, modify; simpl.
  destruct (Qltb _ 6) eqn:E; simpl; [|done].
  unfold time_sleep, bind, modify; simpl.
  destruct (Qltb (6 - _) 0) eqn:E2; done.
Qed.

Hypothesis Hlat : nonneg_latency env.

(** The new stamp is at least six seconds after the old one, and not before
    the call began. *)
Lemma throttle_gap (w : World) :
  (last_call_time w + 6 <= last_call_time (snd (throttle env w)))%Q /\
  (clock w <= last_call_time (snd (throttle env w)))%Q.
Proof using Hlat.
  pose proof (Hlat (events w)) as H0.
  pose proof (Hlat (S (events w))) as H1.
  pose proof (Hlat (S (S (events w)))) as H2.
  unfold throttle, time_time, bind, get, modify; simpl.
  destruct (Qltb _ 6) eqn:E.
  - unfold time_sleep, bind, modify; simpl.
    destruct (Qltb (6 - _) 0) eqn:E2.
    + apply Qltb_true in E, E2. exfalso. lra.
    + apply Qltb_true in E. simpl. split; lra.
  - apply Qltb_false in E. simpl. split; lra.
Qed.

End Throttle.

(** ** The search and its formatting *)

Section Search.
Variable env : Env.

Lemma search_and_format_result (query : string) (max_results : Z) (w : World) :
  fst (search_and_format env query max_results w) =
  answer (tavily_search env (length (tavily_log w)) query max_results).
Proof.
  unfold search_and_format, try_except, tavily_client_search, print, bind, get, modify, answer.
  simpl.
  destruct (tavily_search env _ query max_results) as [resp|e]; simpl.
  - destruct (resp_results resp) as [[|r rs]|]; reflexivity.
  - destruct (isinstance_Exception e); reflexivity.
Qed.

Lemma search_and_format_world (query : string) (max_results : Z) (w : World) :
  let w' := snd (search_and_format env query max_results w) in
  last_call_time w' = last_call_time w /\
  sleep_log w' = sleep_log w /\
  runner_log w' = runner_log w /\
  tavily_log w' =
    tavily_log w ++ [mkTavilyCall query max_results (clock w + latency env (events w))].
Proof.
  unfold search_and_format, try_except, tavily_client_search, print, bind, get, modify.
  simpl.
  destruct (tavily_search env _ query max_results) as [resp|e]; simpl.
  - destruct (resp_results resp) as [[|r rs]|]; done.
  - destruct (isinstance_Exception e); done.
Qed.

Lemma web_search_unfold (query : string) (max_results : Z) (w : World) :
  web_search env query max_results w =
  search_and_format env query max_results (snd (throttle env w)).
Proof.
  unfold web_search, bind.
  pose proof (throttle_returns env w) as H.
  destruct (throttle env w) as [o w1]. simpl in H. subst o. reflexivity.
Qed.

Lemma web_search_result (query : string) (max_results : Z) (w : World) :
  fst (web_search env query max_results w) =
  answer (tavily_search env (length (tavily_log w)) query max_results).
Proof.
  rewrite web_search_unfold, search_and_format_result.
  by destruct (throttle_logs env w) as (_ & -> & _).
Qed.

Lemma web_search_stamp (query : string) (max_results : Z) (w : World) :
  last_call_time (snd (web_search env query max_results w)) =
  last_call_time (snd (throttle env w)).
Proof.
  rewrite web_search_unfold.
  by destruct (search_and_format_world query max_results (snd (throttle env w))) as (-> & _).
Qed.

End Search.

(** The loop of lines 71-76 builds one line per entry, in the order of the
    entries. *)
Lemma format_results_map (rs : list (gmap string PyVal)) :
  format_results rs = map format_entry rs.
Proof.
  unfold format_results.
  enough (H : forall acc, fold_left (fun formatted r => formatted ++ [format_entry r]) rs acc
                          = acc ++ map format_entry rs) by apply (H []).
  induction rs as [|r rs IH]; intros acc; simpl.
  - by rewrite app_nil_r.
  - rewrite IH, <- app_assoc. reflexivity.
Qed.

(** The stamp depends on the clock and on nothing the provider does. *)
Lemma throttle_same_latency (env env' : Env) (w : World) :
  latency env' = latency env ->
  last_call_time (snd (throttle env' w)) = last_call_time (snd (throttle env w)).
Proof.
  intros Heq.
  unfold throttle, time_time, time_sleep, elapse, bind, get, modify; simpl.
  rewrite Heq. reflexivity.
Qed.

(** Along a run of back-to-back calls each stamp is at least six seconds
    after the one before. *)
Lemma stamps_spaced (env : Env) (queries : list (string * Z)) :
  nonneg_latency env ->
  forall (w : World) (i : nat) (t1 t2 : Q),
    stamps env queries w !! i = Some t1 ->
    stamps env queries w !! S i = Some t2 ->
    (t1 + 6 <= t2)%Q.
Proof.
  intros Hlat. induction queries as [|[q m] rest IH]; intros w i t1 t2 H1 H2.
  - discriminate.
  - simpl in H1, H2. destruct i as [|i].
    + simpl in H1. injection H1 as <-.
      destruct rest as [|[q' m'] rest']; [discriminate|].
      simpl in H2. injection H2 as <-.
      set (w1 := snd (web_search env q m w)).
      rewrite (web_search_stamp env q' m' w1). apply throttle_gap, Hlat.
    + simpl in H1. eapply IH; eassumption.
Qed.

(** Whatever [web_search] lets through is no [Exception]. *)
Lemma web_search_raises_no_Exception (env : Env) (query : string) (max_results : Z)
    (w : World) (e : PyExc) :
  fst (web_search env query max_results w) = Raise e -> isinstance_Exception e = false.
Proof.
  rewrite web_search_result. unfold answer.
  destruct (tavily_search env _ query max_results) as [resp|e'].
  - destruct (resp_results resp) as [[|r rs]|]; discriminate.
  - destruct (isinstance_Exception e') eqn:E; [discriminate|].
    intros [= <-]. exact E.
Qed.

Lemma web_search_issue (env : Env) (query : string) (max_results : Z) (w : World) :
  let w' := snd (web_search env query max_results w) in
  tavily_log w' =
    tavily_log w ++
    [mkTavilyCall query max_results
       (last_call_time w' + latency env (events (snd (throttle env w))))].
Proof.
  simpl. rewrite web_search_unfold.
  destruct (search_and_format_world env query max_results (snd (throttle env w)))
    as (-> & _ & _ & ->).
  rewrite throttle_stamp_is_clock.
  by destruct (throttle_logs env w) as (_ & -> & _).
Qed.

Lemma web_search_sleep_log (env : Env) (query : string) (max_results : Z) (w : World) :
  sleep_log (snd (web_search env query max_results w)) =
  sleep_log w ++ (if Qltb (elapsed_at env w) 6 then [(6 - elapsed_at env w)%Q] else []).
Proof.
  rewrite web_search_unfold.
  destruct (search_and_format_world env query max_results (snd (throttle env w)))
    as (_ & -> & _).
  apply throttle_sleep_log.
Qed.

(** C1: two consecutive calls of [web_search] through the shared global are
    stamped at least 6 seconds apart, whatever happens in between that leaves
    the global alone.  The second call sleeps for the remainder of the
    interval exactly when less than 6 seconds have elapsed, and its stamp is
    the clock read right before the provider call, which is the next effect. *)
Theorem web_search_min_interval (env : Env) (q1 q2 : string) (m1 m2 : Z)
    (w : World) (between : World -> World) :
  nonneg_latency env ->
  (forall x, last_call_time (between x) = last_call_time x) ->
  let w1 := snd (web_search env q1 m1 w) in
  let w2 := snd (web_search env q2 m2 (between w1)) in
  (last_call_time w1 + 6 <= last_call_time w2)%Q /\
  sleep_log w2 =
    sleep_log (between w1) ++
    (if Qltb (elapsed_at env (between w1)) 6
     then [(6 - elapsed_at env (between w1))%Q] else []) /\
  exists k, tavily_log w2 =
            tavily_log (between w1) ++
            [mkTavilyCall q2 m2 (last_call_time w2 + latency env k)].
Proof.
  intros Hlat Hkeep w1 w2. subst w2. split; [|split].
  - rewrite web_search_stamp, <- (Hkeep w1). apply throttle_gap, Hlat.
  - apply web_search_sleep_log.
  - eexists. apply web_search_issue.
Qed.

Lemma web_search_min_interval_witness :
  (last_call_time (snd (web_search (env_flaky 0) "a" 5 world0)) + 6 <=
   last_call_time
     (snd (web_search (env_flaky 0) "b" 5
             (elapse (env_flaky 0) (snd (web_search (env_flaky 0) "a" 5 world0))))))%Q.
Proof.
  apply (web_search_min_interval (env_flaky 0) "a" "b" 5 5 world0 (elapse (env_flaky 0))).
  - intros n. vm_compute. discriminate.
  - intros x. reflexivity.
Defined.

(** C5: when the provider raises an exception with message [m], [web_search]
    returns the string "WebSearchTool failed: " followed by [m] and raises
    nothing. *)
Theorem web_search_reports_failure (env : Env) (query : string) (max_results : Z)
    (w : World) (e : PyExc) :
  tavily_search env (length (tavily_log w)) query max_results = Raise e ->
  isinstance_Exception e = true ->
  fst (web_search env query max_results w) =
  Return ("WebSearchTool failed: " +:+ exc_msg e).
Proof.
  intros Hraise Hexc. rewrite web_search_result, Hraise. simpl. by rewrite Hexc.
Qed.

Lemma web_search_reports_failure_witness :
  fst (web_search env_auth "q" 5 world0) = Return "WebSearchTool failed: boom".
Proof.
  apply (web_search_reports_failure env_auth "q" 5 world0 boom); reflexivity.
Defined.

(** C6: when the provider's response holds no results, [web_search] returns
    the string "No results found.", which is not the empty string. *)
Theorem web_search_no_results (env : Env) (query : string) (max_results : Z)
    (w : World) (resp : Response) :
  tavily_search env (length (tavily_log w)) query max_results = Return resp ->
  resp_results resp = None \/ resp_results resp = Some [] ->
  fst (web_search env query max_results w) = Return "No results found." /\
  fst (web_search env query max_results w) <> Return EmptyString.
Proof.
  intros Hresp Hnone.
  assert (H : fst (web_search env query max_results w) = Return "No results found.").
  { rewrite web_search_result, Hresp. simpl. by destruct Hnone as [-> | ->]. }
  split; [exact H|]. rewrite H. discriminate.
Qed.

Lemma web_search_no_results_witness :
  fst (web_search (env_flaky 0) "q" 5 world0) = Return "No results found.".
Proof.
  apply (web_search_no_results (env_flaky 0) "q" 5 world0 no_results).
  - reflexivity.
  - right. reflexivity.
Defined.

Lemma format_entry_described (r : gmap string PyVal) : format_entry r = described_entry r.
Proof.
  unfold format_entry, described_entry. f_equal. f_equal; [|f_equal; f_equal; [|f_equal]].
  - unfold entry_title, described_title, dict_get. by destruct (r !! "title").
  - unfold entry_url, described_url, dict_get. by destruct (r !! "url").
  - unfold entry_snippet, described_snippet, dict_get, py_or, nonempty_text.
    destruct (r !! "snippet") as [[|s]|]; simpl;
      try (destruct (String.eqb s EmptyString); simpl; [|reflexivity]);
      destruct (r !! "content") as [[|c]|]; simpl; try reflexivity;
      destruct (String.eqb c EmptyString); reflexivity.
Qed.

(** C7, as the code has it: for a non-empty result list [web_search] returns
    the newline-joined lines of the entries, one per entry and in the
    provider's order, each "- {title} ({url}): {snippet}" where a missing
    title is "No Title", a missing url is "No URL", and the snippet is the
    snippet field if it has text, else the content field if it has text, else
    "No snippet available". *)
Theorem web_search_formats_entries (env : Env) (query : string) (max_results : Z)
    (w : World) (resp : Response) (rs : list (gmap string PyVal)) :
  tavily_search env (length (tavily_log w)) query max_results = Return resp ->
  resp_results resp = Some rs ->
  rs <> [] ->
  fst (web_search env query max_results w) =
    Return (join newline (map described_entry rs)) /\
  length (map described_entry rs) = length rs.
Proof.
  intros Hresp Hrs Hne. split; [|apply length_map].
  rewrite web_search_result, Hresp. simpl. rewrite Hrs.
  destruct rs as [|r rs']; [done|].
  rewrite format_results_map. do 2 f_equal.
  apply map_ext. intros r0. apply format_entry_described.
Qed.

Lemma web_search_formats_entries_witness :
  fst (web_search env_ceiling "q" 5 world0) =
  Return (join newline (map described_entry [content_only])).
Proof.
  apply (web_search_formats_entries env_ceiling "q" 5 world0
           (mkResponse (Some [content_only])) [content_only]).
  - reflexivity.
  - reflexivity.
  - discriminate.
Defined.

(** C7, as it is worded, fails on an entry that has no snippet but has
    content: the line carries the content, not the placeholder. *)
Lemma web_search_snippet_counterexample :
  fst (web_search env_ceiling "q" 5 world0) = Return "- T (U): C" /\
  join newline (map claimed_format_entry [content_only]) =
    "- T (U): No snippet available" /\
  fst (web_search env_ceiling "q" 5 world0) <>
    Return (join newline (map claimed_format_entry [content_only])).
Proof.
  split; [|split]; vm_compute; [reflexivity | reflexivity | discriminate].
Qed.

(** C10: the stamp is written before the provider is called and is the same
    whatever the provider then does.  So when the provider raises and
    [web_search] returns its failure string, the stamp is the fresh clock
    reading all the same, and the next call is stamped no less than 6 seconds
    after the failed one. *)
Theorem failed_search_still_stamps (env env' : Env) (q1 q2 : string) (m1 m2 : Z)
    (w : World) (between : World -> World) (e : PyExc) :
  nonneg_latency env ->
  (forall x, last_call_time (between x) = last_call_time x) ->
  tavily_search env (length (tavily_log w)) q1 m1 = Raise e ->
  isinstance_Exception e = true ->
  latency env' = latency env ->
  let w1 := snd (web_search env q1 m1 w) in
  let w2 := snd (web_search env q2 m2 (between w1)) in
  fst (web_search env q1 m1 w) = Return ("WebSearchTool failed: " +:+ exc_msg e) /\
  last_call_time (snd (web_search env' q1 m1 w)) = last_call_time w1 /\
  (clock w <= last_call_time w1)%Q /\
  (exists k, tavily_log w1 =
             tavily_log w ++ [mkTavilyCall q1 m1 (last_call_time w1 + latency env k)]) /\
  (last_call_time w1 + 6 <= last_call_time w2)%Q.
Proof.
  intros Hlat Hkeep Hraise Hexc Hsame w1 w2. subst w1 w2.
  split; [|split; [|split; [|split]]].
  - rewrite web_search_result, Hraise. simpl. by rewrite Hexc.
  - rewrite !web_search_stamp. by apply throttle_same_latency.
  - rewrite web_search_stamp. apply throttle_gap, Hlat.
  - eexists. apply web_search_issue.
  - set (w1 := snd (web_search env q1 m1 w)).
    rewrite (web_search_stamp env q2 m2 (between w1)), <- (Hkeep w1).
    apply throttle_gap, Hlat.
Qed.

Lemma failed_search_still_stamps_witness :
  fst (web_search env_auth "q" 5 world0) = Return "WebSearchTool failed: boom" /\
  last_call_time (snd (web_search (env_flaky 0) "q" 5 world0)) =
    last_call_time (snd (web_search env_auth "q" 5 world0)) /\
  (last_call_time (snd (web_search env_auth "q" 5 world0)) + 6 <=
   last_call_time
     (snd (web_search env_auth "again" 5 (snd (web_search env_auth "q" 5 world0)))))%Q.
Proof.
  pose proof (failed_search_still_stamps env_auth (env_flaky 0) "q" "again" 5 5
                world0 (fun x => x) boom) as H.
  destruct H as (H1 & H2 & _ & _ & H5).
  - intros n. vm_compute. discriminate.
  - intros x. reflexivity.
  - reflexivity.
  - reflexivity.
  - reflexivity.
  - exact (conj H1 (conj H2 H5)).
Defined.

(** ** The retrying invoker *)

Lemma wait_time_nonneg (base_delay attempt : Z) :
  (0 <= base_delay)%Z -> (0 <= attempt)%Z -> (0 <= wait_time base_delay attempt)%Z.
Proof.
  intros Hb Ha. unfold wait_time. apply Z.mul_nonneg_nonneg; [exact Hb|].
  apply Z.pow_nonneg. lia.
Qed.

(** A wait that is not negative and in range is slept. *)
Lemma sleep_accepts (env : Env) (secs : Z) (w : World) :
  (0 <= secs)%Z -> sleep_in_range secs = true ->
  time_sleep_int env secs w = (Return tt, log_sleep (inject_Z secs) (elapse env w)).
Proof.
  intros H0 Hr. unfold time_sleep_int, bind, modify. simpl. rewrite Hr.
  assert (Hlt : (secs <? 0)%Z = false) by (apply Z.ltb_ge; lia).
  by rewrite Hlt.
Qed.


Section Retry_facts.
Variable env : Env.
Variables (agent : Agent) (prompt : string) (max_turns max_retries base_delay : Z).

Local Abbreviation call := (mkRunnerCall agent prompt max_turns).

Lemma attempt_once_settled (attempt : Z) (w : World) (o : Outcome RunResult) :
  Runner_run_sync env (length (runner_log w)) agent prompt max_turns = o ->
  settles o ->
  attempt_once env agent prompt max_turns base_delay attempt w =
  (match o with Return r => Return (Returned r) | Raise e => Raise e end,
   log_runner call (elapse env w)).
Proof.
  intros Ho Hs.
  unfold attempt_once, try_except, run_sync, bind, get, modify, ret, raise. simpl.
  rewrite Ho. destruct o as [r|e]; simpl; [reflexivity|].
  unfold settles, is_transient in Hs.
  apply orb_false_iff in Hs as [-> Hs]. apply andb_false_iff in Hs as [-> | ->].
  - reflexivity.
  - by destruct (isinstance_Exception e).
Qed.






End Retry_facts.

(** ** The claims on the retrying invoker *)

(** The waits of the first [n] passes at concrete settings. *)
Tactic Notation "accept_waits" integer(n) :=
  let k := fresh "k" in
  let Hk := fresh "Hk" in
  intros k Hk;
  do n (destruct k as [|k]; [split; [vm_compute; discriminate | reflexivity]|]);
  exfalso; lia.





(** C4: when the first attempt raises an exception that is no rate limit
    signal and whose message holds neither "RESOURCE_EXHAUSTED" nor "429",
    [safe_run_sync] raises that same exception after this one attempt: the
    runner was called once, nothing was printed and nothing slept. *)
Theorem fatal_error_not_retried (env : Env) (agent : Agent) (prompt : string)
    (max_turns max_retries base_delay : Z) (w : World) (e : PyExc) :
  (0 < max_retries)%Z ->
  Runner_run_sync env (length (runner_log w)) agent prompt max_turns = Raise e ->
  isinstance_RateLimitError e = false ->
  quota_marker e = false ->
  exists w',
    safe_run_sync env agent prompt max_turns max_retries base_delay w = Some (Raise e, w') /\
    runner_log w' = runner_log w ++ [mkRunnerCall agent prompt max_turns] /\
    sleep_log w' = sleep_log w /\
    stdout w' = stdout w.
Proof.
  intros Hm He Hrl Hq.
  assert (Hs : settles (Raise e)).
  { unfold settles, is_transient. rewrite Hrl, Hq. by destruct (isinstance_Exception e). }
  exists (log_runner (mkRunnerCall agent prompt max_turns) (elapse env w)).
  split; [|done].
  unfold safe_run_sync.
  destruct (Z.to_nat max_retries) as [|fuel] eqn:Hfuel; [lia|].
  simpl. assert (Hlt : (0 <? max_retries)%Z = true) by (apply Z.ltb_lt; lia).
  rewrite Hlt.
  by rewrite (attempt_once_settled env agent prompt max_turns base_delay 0 w (Raise e) He Hs).
Qed.

Lemma fatal_error_not_retried_witness :
  exists w',
    safe_run_sync env_auth orchestrator_agent request 20 5 5 world0 =
      Some (Raise auth_error, w') /\
    length (runner_log w') = 1%nat /\
    sleep_log w' = [].
Proof.
  destruct (fatal_error_not_retried env_auth orchestrator_agent request 20 5 5 world0
              auth_error)
    as (w' & Hres & Hlog & Hsleep & _).
  - lia.
  - reflexivity.
  - reflexivity.
  - reflexivity.
  - exists w'. split; [exact Hres|]. split; [by rewrite Hlog | exact Hsleep].
Defined.

(** ** The order of the orchestrator's tools *)

Lemma tool_steps_extend (a : Agent) (h1 h2 : list string) :
  rtc (tool_step a) h1 h2 -> exists ext, h2 = h1 ++ ext /\ forallb (registered a) ext = true.
Proof.
  induction 1 as [h | h1 h2 h3 Hstep _ (ext & -> & Hext)].
  - exists []. by rewrite app_nil_r.
  - destruct Hstep as [h t Ht]. exists (t :: ext). split.
    + by rewrite <- app_assoc.
    + simpl. by rewrite Ht.
Qed.

(** The histories a run can produce are the lists of registered names. *)
Lemma reachable_admissible (a : Agent) (h : list string) :
  reachable a h <-> admissible a h = true.
Proof.
  unfold reachable, admissible. split.
  - intros H. by destruct (tool_steps_extend a [] h H) as (ext & -> & Hext).
  - induction h as [|t h IH] using rev_ind; intros H; [apply rtc_refl|].
    rewrite forallb_app in H. apply andb_true_iff in H as [H1 H2].
    simpl in H2. rewrite andb_true_r in H2.
    eapply rtc_r; [by apply IH | by constructor].
Qed.

(** C9, as the code has it: the report writer is one tool of a flat list,
    so it may be called after any history, the empty one included; the order
    of synthesis and report is asked of the model in steps 5 and 6 of the
    instructions and nowhere else. *)
Theorem report_writer_unguarded (h : list string) :
  tool_step orchestrator_agent h (h ++ ["ReportWriterTool"]) /\
  (reachable orchestrator_agent h -> reachable orchestrator_agent (h ++ ["ReportWriterTool"])) /\
  contains "5. Pass collected findings to synthesis_agent" orchestrator_agent_instructions
    = true /\
  contains "6. Finally, pass synthesized insights to report_writer_agent"
    orchestrator_agent_instructions = true.
Proof.
  assert (Hstep : tool_step orchestrator_agent h (h ++ ["ReportWriterTool"])).
  { constructor. reflexivity. }
  split; [exact Hstep|]. split; [|split; vm_compute; reflexivity].
  intros Hh. eapply rtc_r; [exact Hh | exact Hstep].
Qed.

(** C9, as it is worded, fails on the run whose first call is the report
    writer. *)
Lemma report_before_synthesis_counterexample :
  reachable orchestrator_agent ["ReportWriterTool"] /\
  ~ reporting_after_synthesis ["ReportWriterTool"].
Proof.
  split.
  - apply reachable_admissible. reflexivity.
  - intros H. destruct (H 0%nat eq_refl) as (j & Hj & _). lia.
Qed.

(** * Further properties of the script *)

(** ** The retrying invoker on any runner *)

Section Invoker.
Variable env : Env.
Variables (agent : Agent) (prompt : string) (max_turns max_retries base_delay : Z).

Local Abbreviation this_call := (mkRunnerCall agent prompt max_turns).

(** One pass of the loop calls the runner once, and sleeps once exactly when
    it ends at the bottom of a handler. *)
Lemma attempt_once_cases (attempt : Z) (w : World) :
  let o := fst (attempt_once env agent prompt max_turns base_delay attempt w) in
  let w' := snd (attempt_once env agent prompt max_turns base_delay attempt w) in
  runner_log w' = runner_log w ++ [this_call] /\
  tavily_log w' = tavily_log w /\
  last_call_time w' = last_call_time w /\
  match o with
  | Return (Continue a') =>
      a' = (attempt + 1)%Z /\
      sleep_log w' = sleep_log w ++ [inject_Z (wait_time base_delay attempt)]
  | _ => sleep_log w' = sleep_log w
  end.
Proof.
  assert (Hback : forall label w0,
            let o := fst (backoff env label base_delay attempt w0) in
            let w' := snd (backoff env label base_delay attempt w0) in
            runner_log w' = runner_log w0 /\
            tavily_log w' = tavily_log w0 /\
            last_call_time w' = last_call_time w0 /\
            match o with
            | Return (Continue a') =>
                a' = (attempt + 1)%Z /\
                sleep_log w' = sleep_log w0 ++ [inject_Z (wait_time base_delay attempt)]
            | _ => sleep_log w' = sleep_log w0
            end).
  { intros label w0. unfold backoff, print, time_sleep_int, bind, modify, ret, raise. simpl.
    destruct (sleep_in_range (wait_time base_delay attempt)); simpl; [|done].
    destruct (wait_time base_delay attempt <? 0)%Z; simpl; done. }
  unfold attempt_once, try_except, run_sync, bind, get, modify, ret, raise. simpl.
  destruct (Runner_run_sync env _ agent prompt max_turns) as [r|e]; simpl; [done|].
  destruct (isinstance_RateLimitError e);
    [exact (Hback "Rate limit hit" (log_runner this_call (elapse env w)))|].
  destruct (isinstance_Exception e); [|done].
  destruct (quota_marker e); [|done].
  exact (Hback "Gemini quota exceeded" (log_runner this_call (elapse env w))).
Qed.


Lemma backoffs_cons (attempt : Z) (n : nat) :
  backoffs base_delay attempt (S n) =
  inject_Z (wait_time base_delay attempt) :: backoffs base_delay (attempt + 1) n.
Proof.
  unfold backoffs. simpl. rewrite Z.add_0_r. f_equal.
  rewrite <- seq_shift, map_map. apply map_ext. intros k.
  do 2 f_equal. lia.
Qed.

(** Whatever the runner does, the loop ends within the passes that are left:
    it has made [k] calls, all the same, and slept [j] times, as the backoff
    schedule has it. *)
Lemma safe_run_loop_bounded (fuel : nat) :
  forall (attempt : Z) (w : World),
    (Z.to_nat (max_retries - attempt) <= fuel)%nat ->
    exists o w' k j,
      safe_run_loop env fuel agent prompt max_turns max_retries base_delay attempt w =
        Some (o, w') /\
      (j <= k)%nat /\ (k <= Z.to_nat (max_retries - attempt))%nat /\
      runner_log w' = runner_log w ++ replicate k this_call /\
      sleep_log w' = sleep_log w ++ backoffs base_delay attempt j /\
      tavily_log w' = tavily_log w /\
      last_call_time w' = last_call_time w.
Proof.
  induction fuel as [|fuel IH]; intros attempt w Hfuel.
  - simpl. destruct (attempt <? max_retries)%Z eqn:Hlt; [apply Z.ltb_lt in Hlt; lia|].
    exists (Raise (Exception "Too many retries, giving up.")), w, 0%nat, 0%nat.
    rewrite !app_nil_r. repeat split; lia.
  - simpl. destruct (attempt <? max_retries)%Z eqn:Hlt.
    + apply Z.ltb_lt in Hlt.
      pose proof (attempt_once_cases attempt w) as Hcases. simpl in Hcases.
      destruct (attempt_once env agent prompt max_turns base_delay attempt w)
        as [[[r|a']|e] w1]; simpl in Hcases;
        destruct Hcases as (Hr & Ht & Hl & Hs).
      * exists (Return r), w1, 1%nat, 0%nat. rewrite app_nil_r.
        repeat split; try done; lia.
      * destruct Hs as [-> Hs].
        destruct (IH (attempt + 1)%Z w1) as (o & w' & k & j & Hres & Hjk & Hk & Hr' & Hs' & Ht' & Hl');
          [lia|].
        exists o, w', (S k), (S j). split; [exact Hres|].
        split; [lia|]. split; [lia|]. split; [|split; [|split]].
        -- rewrite Hr', Hr, <- app_assoc. reflexivity.
        -- rewrite Hs', Hs, <- app_assoc, backoffs_cons. reflexivity.
        -- congruence.
        -- congruence.
      * exists (Raise e), w1, 1%nat, 0%nat. rewrite app_nil_r.
        repeat split; try done; lia.
    + exists (Raise (Exception "Too many retries, giving up.")), w, 0%nat, 0%nat.
      rewrite !app_nil_r. repeat split; lia.
Qed.

End Invoker.

(** X1: [safe_run_sync] ends on every runner and for every setting: it
    yields an outcome after at most [max_retries] calls of its own to the
    runner, each with the agent, the prompt and the [max_turns] it was given,
    and after at most as many sleeps of its own as calls, taken in order
    from the backoff schedule. *)
Theorem safe_run_sync_terminates (env : Env) (agent : Agent) (prompt : string)
    (max_turns max_retries base_delay : Z) (w : World) :
  exists o w' k j,
    safe_run_sync env agent prompt max_turns max_retries base_delay w = Some (o, w') /\
    (j <= k)%nat /\ (k <= Z.to_nat max_retries)%nat /\
    runner_log w' = runner_log w ++ replicate k (mkRunnerCall agent prompt max_turns) /\
    sleep_log w' = sleep_log w ++ backoffs base_delay 0 j.
Proof.
  unfold safe_run_sync.
  destruct (safe_run_loop_bounded env agent prompt max_turns max_retries base_delay
              (Z.to_nat max_retries) 0 w)
    as (o & w' & k & j & Hres & Hjk & Hk & Hr & Hs & _); [lia|].
  rewrite Z.sub_0_r in Hk. by exists o, w', k, j.
Qed.

(** X2: with [max_retries] zero or negative the loop body never runs:
    [safe_run_sync] raises its giving-up error at once, without calling the
    runner and without any other effect. *)
Theorem no_attempt_without_budget (env : Env) (agent : Agent) (prompt : string)
    (max_turns max_retries base_delay : Z) (w : World) :
  (max_retries <= 0)%Z ->
  safe_run_sync env agent prompt max_turns max_retries base_delay w =
  Some (Raise (Exception "Too many retries, giving up."), w).
Proof.
  intros Hm. unfold safe_run_sync.
  replace (Z.to_nat max_retries) with 0%nat by lia. simpl.
  assert (Hlt : (0 <? max_retries)%Z = false) by (apply Z.ltb_ge; lia).
  by rewrite Hlt.
Qed.

Lemma no_attempt_without_budget_witness :
  safe_run_sync (env_flaky 0) orchestrator_agent request 20 0 5 world0 =
  Some (Raise (Exception "Too many retries, giving up."), world0).
Proof.
  apply (no_attempt_without_budget (env_flaky 0) orchestrator_agent request 20 0 5 world0).
  lia.
Defined.

Section Invoker_edges.
Variable env : Env.
Variables (agent : Agent) (prompt : string) (max_turns max_retries base_delay : Z).

Local Abbreviation the_call := (mkRunnerCall agent prompt max_turns).



End Invoker_edges.

Lemma not_Exception_settles (e : PyExc) :
  isinstance_Exception e = false -> is_transient e = false.
Proof.
  unfold is_transient, isinstance_Exception, isinstance_RateLimitError.
  by destruct (exc_class e).
Qed.


Section Invoker_runs.
Variable env : Env.
Variables (agent : Agent) (prompt : string) (max_turns max_retries base_delay : Z).

Local Abbreviation a_call := (mkRunnerCall agent prompt max_turns).



End Invoker_runs.

(** ** The turn ceiling *)




(** ** More on the retrying invoker *)



(** X4: an error that is no [Exception] (a [KeyboardInterrupt], a
    [SystemExit]) is caught by neither handler: it leaves [safe_run_sync]
    after the one call that raised it, whatever its message says, with
    nothing printed and no sleep. *)
Theorem base_exception_passes_through (env : Env) (agent : Agent) (prompt : string)
    (max_turns max_retries base_delay : Z) (w : World) (e : PyExc) :
  (0 < max_retries)%Z ->
  Runner_run_sync env (length (runner_log w)) agent prompt max_turns = Raise e ->
  isinstance_Exception e = false ->
  exists w',
    safe_run_sync env agent prompt max_turns max_retries base_delay w = Some (Raise e, w') /\
    runner_log w' = runner_log w ++ [mkRunnerCall agent prompt max_turns] /\
    sleep_log w' = sleep_log w /\
    stdout w' = stdout w.
Proof.
  intros Hm He Hbase.
  exists (log_runner (mkRunnerCall agent prompt max_turns) (elapse env w)).
  split; [|done].
  unfold safe_run_sync.
  destruct (Z.to_nat max_retries) as [|fuel] eqn:Hfuel; [lia|].
  simpl. assert (Hlt : (0 <? max_retries)%Z = true) by (apply Z.ltb_lt; lia).
  rewrite Hlt.
  by rewrite (attempt_once_settled env agent prompt max_turns base_delay 0 w (Raise e) He
                (not_Exception_settles e Hbase)).
Qed.

Lemma base_exception_passes_through_witness :
  exists w',
    safe_run_sync env_interrupted orchestrator_agent request 20 5 5 world0 =
      Some (Raise interrupt, w') /\
    sleep_log w' = [].
Proof.
  destruct (base_exception_passes_through env_interrupted orchestrator_agent request 20 5 5
              world0 interrupt)
    as (w' & Hres & _ & Hsleep & _).
  - lia.
  - reflexivity.
  - reflexivity.
  - exists w'. split; [exact Hres | exact Hsleep].
Defined.





(** ** The test of line 207 *)








(** ** The plain throttled wrapper *)

(** X8: [throttled_run_sync] first sleeps its 7 seconds, which [time.sleep]
    always takes, and then is one call of the runner, with the default turn
    ceiling, in the world the sleep has left: it hands on whatever that call
    yields, a result or any error, a rate limit signal included, with no
    handler and no retry of its own, and it returns no sooner than 7 seconds
    after it was entered. *)
Theorem throttled_run_sync_once (env : Env) (agent : Agent) (prompt : string) (w : World) :
  nonneg_latency env ->
  let w' := snd (throttled_run_sync env agent prompt w) in
  throttled_run_sync env agent prompt w =
    run_sync env agent prompt DEFAULT_MAX_TURNS (log_sleep 7 (elapse env w)) /\
  fst (throttled_run_sync env agent prompt w) =
    Runner_run_sync env (length (runner_log w)) agent prompt DEFAULT_MAX_TURNS /\
  runner_log w' = runner_log w ++ [mkRunnerCall agent prompt DEFAULT_MAX_TURNS] /\
  (clock w + 7 <= clock w')%Q.
Proof.
  intros Hlat.
  pose proof (Hlat (events w)) as H0. pose proof (Hlat (S (events w))) as H1.
  unfold throttled_run_sync, bind.
  rewrite (sleep_accepts env 7 w) by (lia || reflexivity).
  change (inject_Z 7) with 7%Q.
  unfold run_sync, bind, get, modify, ret, raise. simpl.
  destruct (Runner_run_sync env _ agent prompt DEFAULT_MAX_TURNS) as [r|e]; simpl;
    repeat split; try done; lra.
Qed.

Lemma throttled_run_sync_once_witness :
  fst (throttled_run_sync env_limited orchestrator_agent request world0) =
    Raise rate_limit_error /\
  length (runner_log (snd (throttled_run_sync env_limited orchestrator_agent request world0)))
    = 1%nat.
Proof.
  pose proof (throttled_run_sync_once env_limited orchestrator_agent request world0) as H.
  destruct H as (_ & H2 & H3 & _).
  - intros n. vm_compute. discriminate.
  - split; [exact H2 | by rewrite H3].
Defined.

(** ** More on [web_search] *)

Lemma search_and_format_stdout (env : Env) (query : string) (max_results : Z) (w : World) :
  stdout (snd (search_and_format env query max_results w)) =
  stdout w ++
  match tavily_search env (length (tavily_log w)) query max_results with
  | Return resp => [PrintRepr "DEBUG Tavily response:" resp]
  | Raise _ => []
  end.
Proof.
  unfold search_and_format, try_except, tavily_client_search, print, bind, get, modify.
  simpl.
  destruct (tavily_search env _ query max_results) as [resp|e]; simpl.
  - destruct (resp_results resp) as [[|r rs]|]; done.
  - rewrite app_nil_r. destruct (isinstance_Exception e); done.
Qed.

Lemma search_and_format_clock (env : Env) (query : string) (max_results : Z) (w : World) :
  nonneg_latency env ->
  (clock w <= clock (snd (search_and_format env query max_results w)))%Q.
Proof.
  intros Hlat.
  pose proof (Hlat (events w)) as H0. pose proof (Hlat (S (events w))) as H1.
  unfold search_and_format, try_except, tavily_client_search, print, bind, get, modify.
  simpl.
  destruct (tavily_search env _ query max_results) as [resp|e]; simpl.
  - destruct (resp_results resp) as [[|r rs]|]; simpl; lra.
  - destruct (isinstance_Exception e); simpl; lra.
Qed.

(** X9: an error of the provider that is no [Exception] (a cancellation of
    the task, an interrupt) is not turned into text: it leaves [web_search],
    after the call was stamped and issued, and with nothing printed. *)
Theorem web_search_lets_base_exception_through (env : Env) (query : string)
    (max_results : Z) (w : World) (e : PyExc) :
  nonneg_latency env ->
  tavily_search env (length (tavily_log w)) query max_results = Raise e ->
  isinstance_Exception e = false ->
  let w' := snd (web_search env query max_results w) in
  fst (web_search env query max_results w) = Raise e /\
  stdout w' = stdout w /\
  length (tavily_log w') = S (length (tavily_log w)) /\
  (last_call_time w + 6 <= last_call_time w')%Q.
Proof.
  intros Hlat Hraise Hbase. simpl. split; [|split; [|split]].
  - rewrite web_search_result, Hraise. simpl. by rewrite Hbase.
  - rewrite web_search_unfold, search_and_format_stdout.
    destruct (throttle_logs env w) as (_ & -> & ->). by rewrite Hraise, app_nil_r.
  - pose proof (web_search_issue env query max_results w) as H. simpl in H.
    rewrite H, length_app. simpl. lia.
  - rewrite web_search_stamp. apply throttle_gap, Hlat.
Qed.

Lemma web_search_lets_base_exception_through_witness :
  fst (web_search env_interrupted "q" 5 world0) = Raise interrupt /\
  stdout (snd (web_search env_interrupted "q" 5 world0)) = [].
Proof.
  pose proof (web_search_lets_base_exception_through env_interrupted "q" 5 world0 interrupt)
    as H.
  destruct H as (H1 & H2 & _).
  - intros n. vm_compute. discriminate.
  - reflexivity.
  - reflexivity.
  - split; [exact H1 | exact H2].
Defined.

(** X10: what a caller of [web_search] can get.  A returned answer is the
    text "No results found.", or starts with "WebSearchTool failed: ", or
    starts with the "- " of a first entry; it is never the empty string.
    And whatever [web_search] raises is no [Exception]. *)
Theorem web_search_answer_shape (env : Env) (query : string) (max_results : Z) (w : World) :
  match fst (web_search env query max_results w) with
  | Return s =>
      s <> EmptyString /\
      (s = "No results found." \/
       (exists message, s = "WebSearchTool failed: " +:+ message) \/
       (exists rest, s = "- " +:+ rest))
  | Raise e => isinstance_Exception e = false
  end.
Proof.
  rewrite web_search_result. unfold answer.
  destruct (tavily_search env _ query max_results) as [resp|e].
  - destruct (resp_results resp) as [[|r rs]|];
      [split; [discriminate | by left] | | split; [discriminate | by left]].
    rewrite format_results_map. split.
    + destruct rs; discriminate.
    + right. right. unfold join. simpl. destruct (map format_entry rs); eexists; reflexivity.
  - destruct (isinstance_Exception e) eqn:E; [|exact E].
    split; [discriminate|]. right. left. by eexists.
Qed.

(** X11: where the searches leave their traces.  Every call of [web_search]
    issues exactly one search, for the query and the count it was given,
    never calls the runner, and prints the raw response exactly when the
    provider returned one. *)
Theorem web_search_effects (env : Env) (query : string) (max_results : Z) (w : World) :
  let w' := snd (web_search env query max_results w) in
  runner_log w' = runner_log w /\
  (exists issued_at,
     tavily_log w' = tavily_log w ++ [mkTavilyCall query max_results issued_at]) /\
  stdout w' =
    stdout w ++
    match tavily_search env (length (tavily_log w)) query max_results with
    | Return resp => [PrintRepr "DEBUG Tavily response:" resp]
    | Raise _ => []
    end.
Proof.
  simpl. split; [|split].
  - rewrite web_search_unfold.
    destruct (search_and_format_world env query max_results (snd (throttle env w)))
      as (_ & _ & -> & _).
    by destruct (throttle_logs env w) as (-> & _).
  - eexists. apply (web_search_issue env query max_results w).
  - rewrite web_search_unfold, search_and_format_stdout.
    by destruct (throttle_logs env w) as (_ & -> & ->).
Qed.

(** X12: the rate limit over a run.  Along any run of back-to-back
    searches, the stamp of a call and the stamp of the [k]-th call after it
    are at least [6 * k] seconds apart: no more than ten calls are stamped
    in any minute. *)
Theorem searches_rate_limited (env : Env) (queries : list (string * Z)) (w : World)
    (i k : nat) (t1 t2 : Q) :
  nonneg_latency env ->
  stamps env queries w !! i = Some t1 ->
  stamps env queries w !! (i + k)%nat = Some t2 ->
  (t1 + inject_Z (6 * Z.of_nat k) <= t2)%Q.
Proof.
  intros Hlat H1. revert t2. induction k as [|k IH]; intros t2 H2.
  - rewrite Nat.add_0_r in H2. assert (t2 = t1) as -> by congruence.
    change (inject_Z (6 * Z.of_nat 0)) with 0%Q. lra.
  - destruct (lookup_lt_is_Some_2 (stamps env queries w) (i + k)) as [t Ht].
    { apply lookup_lt_Some in H2. lia. }
    specialize (IH t Ht).
    replace (i + S k)%nat with (S (i + k)) in H2 by lia.
    pose proof (stamps_spaced env queries Hlat w (i + k)%nat t t2 Ht H2) as Hstep.
    replace (6 * Z.of_nat (S k))%Z with (6 * Z.of_nat k + 6)%Z by lia.
    rewrite inject_Z_plus. change (inject_Z 6) with 6%Q. lra.
Qed.

Lemma searches_rate_limited_witness :
  exists t1 t2,
    stamps (env_flaky 0) [("a", 5%Z); ("b", 5%Z); ("c", 5%Z)] world0 !! 0%nat = Some t1 /\
    stamps (env_flaky 0) [("a", 5%Z); ("b", 5%Z); ("c", 5%Z)] world0 !! 2%nat = Some t2 /\
    (t1 + inject_Z (6 * Z.of_nat 2) <= t2)%Q.
Proof.
  eexists _, _. split; [vm_compute; reflexivity|]. split; [vm_compute; reflexivity|].
  apply (searches_rate_limited (env_flaky 0) [("a", 5%Z); ("b", 5%Z); ("c", 5%Z)] world0
           0 2).
  - intros n. vm_compute. discriminate.
  - vm_compute. reflexivity.
  - vm_compute. reflexivity.
Defined.

(** X13: how long a search waits.  When the stamp is not ahead of the
    clock, which every call keeps true, a call of [web_search] sleeps at most
    once and for no more than 6 seconds, and it does not sleep at all when 6
    seconds have passed since the stamp, as they have for the first call of
    a process. *)
Theorem web_search_waits_at_most_six (env : Env) (query : string) (max_results : Z)
    (w : World) :
  nonneg_latency env ->
  stamp_in_past w ->
  let w' := snd (web_search env query max_results w) in
  stamp_in_past w' /\
  (exists slept,
     sleep_log w' = sleep_log w ++ slept /\
     (length slept <= 1)%nat /\
     Forall (fun d => 0 < d /\ d <= 6)%Q slept) /\
  ((last_call_time w + 6 <= clock w)%Q -> sleep_log w' = sleep_log w).
Proof.
  intros Hlat Hpast. simpl. unfold stamp_in_past in *.
  pose proof (Hlat (events w)) as H0.
  split; [|split].
  - rewrite web_search_stamp, web_search_unfold, throttle_stamp_is_clock.
    by apply search_and_format_clock.
  - rewrite web_search_sleep_log. eexists. split; [reflexivity|].
    unfold elapsed_at. destruct (Qltb _ 6) eqn:E; simpl; [|by split; [lia | constructor]].
    apply Qltb_true in E. split; [lia|]. constructor; [|constructor]. split; lra.
  - intros Hsix. rewrite web_search_sleep_log. unfold elapsed_at.
    destruct (Qltb _ 6) eqn:E; [|by rewrite app_nil_r].
    apply Qltb_true in E. lra.
Qed.

Lemma web_search_waits_at_most_six_witness :
  stamp_in_past (snd (web_search (env_flaky 0) "q" 5 world0)) /\
  sleep_log (snd (web_search (env_flaky 0) "q" 5 world0)) = [].
Proof.
  pose proof (web_search_waits_at_most_six (env_flaky 0) "q" 5 world0) as H.
  destruct H as (H1 & _ & H3).
  - intros n. vm_compute. discriminate.
  - vm_compute. discriminate.
  - split; [exact H1|]. apply H3. vm_compute. discriminate.
Defined.

(** ** The agents of the script *)

(** X14: the shape of the delegation.  The six tools of the orchestrator
    go by six different names; the orchestrator cannot search by itself;
    the agents it hands work to hand none on; and among them the search
    function is held by the web search agent alone. *)
Theorem delegation_is_one_level :
  NoDup (map tool_name_of (agent_tools orchestrator_agent)) /\
  length (agent_tools orchestrator_agent) = 6%nat /\
  holds web_search_tool orchestrator_agent = false /\
  Forall (fun b => delegates b = []) (delegates orchestrator_agent) /\
  filter (fun b => holds web_search_tool b = true) (delegates orchestrator_agent) =
    [websearch_agent].
Proof.
  split; [|split; [reflexivity|split; [reflexivity|split]]].
  - apply NoDup_ListNoDup. simpl.
    repeat (constructor; [simpl; intros H; repeat (destruct H as [H|H]; [discriminate|]);
                          exact H|]).
    constructor.
  - repeat constructor.
  - reflexivity.
Qed.

(** ** The script as a whole *)

Lemma report_logs (env : Env) (host : Host) (result : RunResult) (w : World) :
  let w' := snd (fst (report env host result w)) in
  let writes := snd (report env host result w) in
  runner_log w' = runner_log w /\
  tavily_log w' = tavily_log w /\
  sleep_log w' = sleep_log w /\
  (length writes <= 1)%nat /\
  Forall (fun f => fw_text f = final_output result) writes /\
  In (PrintLine (final_output result)) (stdout w').
Proof.
  unfold report, print, bind, modify. simpl.
  destruct (path_resolve host report_file) as [out_path|e]; simpl.
  - destruct (path_write_text host out_path (final_output result)) as [[]|e]; simpl;
      repeat split; try done; try lia; try (by repeat constructor);
      rewrite !in_app_iff; simpl; tauto.
  - repeat split; try done; try lia; rewrite !in_app_iff; simpl; tauto.
Qed.

(** X15: the script saves what it prints.  When the run returns a result
    and the file system takes the write, the script writes the result's
    text once, to the resolved path of the report file, and prints three
    lines after the run: the text, the line that names the path, and the
    text again. *)
Theorem script_saves_what_it_prints (env : Env) (host : Host) (w w1 : World)
    (result : RunResult) (out_path : string) :
  safe_run_sync env orchestrator_agent request 20 default_max_retries default_base_delay w =
    Some (Return result, w1) ->
  path_resolve host report_file = Return out_path ->
  path_write_text host out_path (final_output result) = Return tt ->
  exists w',
    script env host w =
      Some (Return tt, w', [mkFileWrite out_path (final_output result)]) /\
    stdout w' =
      stdout w1 ++ [PrintLine (final_output result);
                    PrintLine (newline +:+ "Report saved to: " +:+ out_path +:+ newline);
                    PrintLine (final_output result)] /\
    runner_log w' = runner_log w1 /\
    sleep_log w' = sleep_log w1.
Proof.
  intros Hrun Hpath Hwrite. unfold script. rewrite Hrun.
  unfold report. rewrite Hpath, Hwrite. eexists. split; [reflexivity|].
  unfold print, bind, modify. simpl. rewrite <- !app_assoc. done.
Qed.

Lemma script_saves_what_it_prints_witness :
  exists w',
    script (env_flaky 2) host_ok world0 =
      Some (Return tt, w',
            [mkFileWrite "/srv/research/lead_generation_business_consultancy_report.md"
                         "REPORT"]).
Proof.
  edestruct (script_saves_what_it_prints (env_flaky 2) host_ok world0) as (w' & H & _).
  - vm_compute. reflexivity.
  - reflexivity.
  - reflexivity.
  - exists w'. exact H.
Defined.

(** X16: the script on any runner and any file system.  It ends after at
    most five calls of the runner, all for the orchestrator, the request
    of line 221 and a ceiling of 20 turns, and without a search of its own.
    It asks for at most one write, and only after a run that returned a
    result: the text written is that result's text, and it was printed
    before. *)
Theorem script_bounded (env : Env) (host : Host) (w : World) :
  exists o w' writes k,
    script env host w = Some (o, w', writes) /\
    (k <= 5)%nat /\
    runner_log w' = runner_log w ++ replicate k (mkRunnerCall orchestrator_agent request 20) /\
    tavily_log w' = tavily_log w /\
    (length writes <= 1)%nat /\
    Forall (fun f => In (PrintLine (fw_text f)) (stdout w')) writes /\
    Forall (fun f =>
              exists result w1,
                safe_run_sync env orchestrator_agent request 20 default_max_retries
                              default_base_delay w = Some (Return result, w1) /\
                fw_text f = final_output result) writes.
Proof.
  unfold script, safe_run_sync.
  destruct (safe_run_loop_bounded env orchestrator_agent request 20 default_max_retries
              default_base_delay (Z.to_nat default_max_retries) 0 w)
    as (o & w1 & k & j & Hres & _ & Hk & Hr & _ & Ht & _); [reflexivity|].
  rewrite Hres. destruct o as [result|e].
  - pose proof (report_logs env host result w1) as H. simpl in H.
    destruct H as (Hr' & Ht' & _ & Hlen & Htext & Hin).
    destruct (report env host result w1) as [[o' w'] writes]. simpl in *.
    exists o', w', writes, k. split; [reflexivity|]. split; [exact Hk|].
    split; [congruence|]. split; [congruence|]. split; [exact Hlen|]. split.
    + eapply Forall_impl; [exact Htext|]. intros f ->. exact Hin.
    + eapply Forall_impl; [exact Htext|]. intros f Hf. by exists result, w1.
  - exists (Raise e), w1, [], k. repeat split; try done. simpl. lia.
Qed.
